(** * Rural Health AI Triage: the scoring engine and the visit store

    A shallow embedding of [app.py]: the three scoring functions
    ([calculate_risk_score], [get_risk_level], [get_recommendation]), the
    JSON-backed visit store ([load_data], [save_data] and the handler that
    records a visit) and the dashboard query (filter, then sort by score).

    Conventions.
    - Python [int] is [Z].  The vitals are Python numbers ([int] from the
      integer widgets, [float] for the temperature); a finite number is a
      rational, and the code only compares vitals with integer literals, so
      they are modelled as [Q] and the comparisons as exact rational
      comparisons.
    - [str] is [string] (the bytes of the UTF-8 source text), a [list] of
      tags is [list string], the vitals [dict] is [gmap string Q].
    - The file [patient_visits.json] is the state of the store; reading it
      can raise, so the store code runs in a state-and-error monad. *)

From Stdlib Require Import ZArith QArith Lia.
From stdpp Require Import gmap strings list fin_maps sorting.

Local Open Scope string_scope.
Local Open Scope list_scope.
Local Open Scope Z_scope.

(** ** Python helpers *)

(** [x > y] and [x < y] on numbers. *)
Definition Qgtb (x y : Q) : bool := negb (Qle_bool x y).
Definition Qltb (x y : Q) : bool := negb (Qle_bool y x).

(** [d.get(key, default)]. *)
Definition dict_get (d : gmap string Q) (key : string) (dflt : Q) : Q :=
  default dflt (d !! key).

(** [x in l] for a list of strings. *)
Definition py_in (x : string) (l : list string) : bool := bool_decide (x ∈ l).

(** ** Scoring engine *)

Definition critical_symptoms : list string :=
  ["chest_pain"; "breathlessness"; "confusion"; "severe_bleeding"].
Definition moderate_symptoms : list string :=
  ["high_fever"; "persistent_cough"; "severe_pain"].
Definition high_risk_conditions : list string := ["heart_disease"; "copd"].
Definition moderate_risk_conditions : list string :=
  ["diabetes"; "hypertension"; "pregnancy"].

(** One iteration of [for symptom in symptoms]. *)
Definition symptom_step (score : Z) (symptom : string) : Z :=
  if py_in symptom critical_symptoms then score + 25
  else if py_in symptom moderate_symptoms then score + 10
  else score + 5.

(** One iteration of [for condition in conditions]. *)
Definition condition_step (score : Z) (condition : string) : Z :=
  if py_in condition high_risk_conditions then score + 15
  else if py_in condition moderate_risk_conditions then score + 10
  else score.

(** The value of [score] just before [return min(score, 100)]. *)
Definition raw_risk_score
    (age : Z) (symptoms : list string) (vitals : gmap string Q)
    (conditions : list string) : Z :=
  let score := 0 in
  let score :=
    if age <? 5 then score + 15
    else if age >? 60 then score + 20
    else score in
  let score := fold_left symptom_step symptoms score in
  let bp_sys := dict_get vitals "bp_systolic" 120 in
  let bp_dia := dict_get vitals "bp_diastolic" 80 in
  let heart_rate := dict_get vitals "heart_rate" 75 in
  let temp := dict_get vitals "temperature" 98.6 in
  let spo2 := dict_get vitals "spo2" 98 in
  let score := if Qgtb bp_sys 140 || Qltb bp_sys 90 then score + 15 else score in
  let score := if Qgtb bp_dia 90 || Qltb bp_dia 60 then score + 10 else score in
  let score :=
    if Qgtb heart_rate 100 || Qltb heart_rate 50 then score + 15 else score in
  let score := if Qgtb temp 101 then score + 10 else score in
  let score := if Qltb spo2 94 then score + 20 else score in
  let score := fold_left condition_step conditions score in
  score.

Definition calculate_risk_score
    (age : Z) (symptoms : list string) (vitals : gmap string Q)
    (conditions : list string) : Z :=
  Z.min (raw_risk_score age symptoms vitals conditions) 100.

Definition get_risk_level (score : Z) : string :=
  if score >=? 60 then "HIGH"
  else if score >=? 30 then "MEDIUM"
  else "LOW".

Definition get_recommendation (risk_level : string) (score : Z) : string :=
  if String.eqb risk_level "HIGH" then "⚠️ URGENT REFERRAL TO PHC/HOSPITAL"
  else if String.eqb risk_level "MEDIUM" then "📋 Schedule Follow-up within 48 hours"
  else "✅ Home Care with monitoring".

(** Lines 180 to 182 of the handler: score, level and recommendation. *)
Definition assess
    (age : Z) (symptoms : list string) (vitals : gmap string Q)
    (conditions : list string) : Z * string * string :=
  let risk_score := calculate_risk_score age symptoms vitals conditions in
  let risk_level := get_risk_level risk_score in
  let recommendation := get_recommendation risk_level risk_score in
  (risk_score, risk_level, recommendation).

(** *** The additive reading of the score

    The contributions the loop and the five checks add, one definition per
    source of points; [raw_risk_score_split] shows the code computes their
    sum. *)

Definition age_points (age : Z) : Z :=
  if age <? 5 then 15 else if age >? 60 then 20 else 0.

Definition symptom_points (symptom : string) : Z := symptom_step 0 symptom.
Definition condition_points (condition : string) : Z := condition_step 0 condition.

Definition bp_sys_points (vitals : gmap string Q) : Z :=
  let bp_sys := dict_get vitals "bp_systolic" 120 in
  if Qgtb bp_sys 140 || Qltb bp_sys 90 then 15 else 0.
Definition bp_dia_points (vitals : gmap string Q) : Z :=
  let bp_dia := dict_get vitals "bp_diastolic" 80 in
  if Qgtb bp_dia 90 || Qltb bp_dia 60 then 10 else 0.
Definition heart_rate_points (vitals : gmap string Q) : Z :=
  let heart_rate := dict_get vitals "heart_rate" 75 in
  if Qgtb heart_rate 100 || Qltb heart_rate 50 then 15 else 0.
Definition temp_points (vitals : gmap string Q) : Z :=
  let temp := dict_get vitals "temperature" 98.6 in
  if Qgtb temp 101 then 10 else 0.
Definition spo2_points (vitals : gmap string Q) : Z :=
  let spo2 := dict_get vitals "spo2" 98 in
  if Qltb spo2 94 then 20 else 0.

Definition vitals_points (vitals : gmap string Q) : Z :=
  bp_sys_points vitals + bp_dia_points vitals + heart_rate_points vitals
  + temp_points vitals + spo2_points vitals.

Fixpoint sum_points {A} (f : A → Z) (l : list A) : Z :=
  match l with
  | [] => 0
  | x :: l => f x + sum_points f l
  end.

(** The order on the three tiers, LOW < MEDIUM < HIGH. *)
Definition level_rank (risk_level : string) : nat :=
  if String.eqb risk_level "HIGH" then 2
  else if String.eqb risk_level "MEDIUM" then 1
  else 0.

(** The vitals the form sends when every widget is left at its default. *)
Definition baseline_vitals : gmap string Q :=
  <["bp_systolic" := 120%Q]> (<["bp_diastolic" := 80%Q]>
  (<["heart_rate" := 75%Q]> (<["temperature" := 98.6%Q]>
  (<["spo2" := 98%Q]> ∅)))).

(** ** Visit records and the form *)

(** One object of the JSON array, with the keys [visit_data] is built with. *)
Module Visit.
Record t : Type := mk {
  id : Z;
  patient_name : string;
  age : Z;
  gender : string;
  village : string;
  health_worker : string;
  visit_date : string;
  symptoms : list string;
  conditions : list string;
  vitals : gmap string Q;
  risk_score : Z;
  risk_level : string;
  recommendation : string;
  timestamp : string
}.
End Visit.

(** The widget values of the "New Patient Visit" page when the button is
    pressed.  [visit_date] is the chosen date already formatted with
    [strftime('%Y-%m-%d')]. *)
Module Form.
Record t : Type := mk {
  patient_name : string;
  age : Z;
  gender : string;
  village : string;
  worker_name : string;
  visit_date : string;
  symptoms : list string;
  other_symptoms : string;
  conditions : list string;
  bp_sys : Z;
  bp_dia : Z;
  heart_rate : Z;
  temperature : Q;
  spo2 : Z
}.
End Form.

(** ** The visit store

    What is on disk under [DATA_FILE]: no file, a file [json.load] cannot
    decode, or a file holding the array [json.dump] wrote.  These are the
    states the program itself produces or the claims speak of; a path that
    cannot be opened, read or written and a document that is not an array
    of records are not modelled, so nothing below says in which states
    alone the store code raises. *)
Inductive backing : Type :=
  | NoFile
  | Unparseable
  | Document (data : list Visit.t).

Inductive exn : Type :=
  | JSONDecodeError.

(** Store code: reads and replaces the backing file, or raises. *)
Definition store_m (A : Type) : Type := backing → exn + (A * backing).

#[global] Instance store_ret : MRet store_m :=
  λ A x disk, inr (x, disk).
#[global] Instance store_bind : MBind store_m :=
  λ A B k c disk,
    match c disk with
    | inl e => inl e
    | inr (x, disk') => k x disk'
    end.

Definition load_data : store_m (list Visit.t) :=
  λ disk,
    match disk with
    | NoFile => inr ([], disk)                 (* os.path.exists is false *)
    | Unparseable => inl JSONDecodeError       (* json.load raises *)
    | Document data => inr (data, disk)
    end.

Definition save_data (data : list Visit.t) : store_m unit :=
  λ _, inr ((), Document data).

(** Truthiness of a [str]. *)
Definition truthy (s : string) : bool := negb (String.eqb s "").

(** The [else] branch of the button handler: assess, build [visit_data],
    append it and save.  [now] is [datetime.now().isoformat()]. *)
Definition record_visit (form : Form.t) (now : string) : store_m Visit.t :=
  let vitals : gmap string Q :=
    <["bp_systolic" := inject_Z (Form.bp_sys form)]>
    (<["bp_diastolic" := inject_Z (Form.bp_dia form)]>
    (<["heart_rate" := inject_Z (Form.heart_rate form)]>
    (<["temperature" := Form.temperature form]>
    (<["spo2" := inject_Z (Form.spo2 form)]> ∅)))) in
  let risk_score :=
    calculate_risk_score (Form.age form) (Form.symptoms form) vitals
      (Form.conditions form) in
  let risk_level := get_risk_level risk_score in
  let recommendation := get_recommendation risk_level risk_score in
  persisted ← load_data;
  let visit_data := {|
    Visit.id := Z.of_nat (length persisted) + 1;
    Visit.patient_name := Form.patient_name form;
    Visit.age := Form.age form;
    Visit.gender := Form.gender form;
    Visit.village := Form.village form;
    Visit.health_worker := Form.worker_name form;
    Visit.visit_date := Form.visit_date form;
    Visit.symptoms :=
      Form.symptoms form ++
      (if truthy (Form.other_symptoms form) then [Form.other_symptoms form]
       else []);
    Visit.conditions := Form.conditions form;
    Visit.vitals := vitals;
    Visit.risk_score := risk_score;
    Visit.risk_level := risk_level;
    Visit.recommendation := recommendation;
    Visit.timestamp := now
  |} in
  data ← load_data;
  let data := data ++ [visit_data] in
  _ ← save_data data;
  mret visit_data.

(** [visit_data] as a function of the id it is given: what [record_visit]
    stores for a form ([record_visit_run] below). *)
Definition visit_of (form : Form.t) (now : string) (id : Z) : Visit.t :=
  let vitals : gmap string Q :=
    <["bp_systolic" := inject_Z (Form.bp_sys form)]>
    (<["bp_diastolic" := inject_Z (Form.bp_dia form)]>
    (<["heart_rate" := inject_Z (Form.heart_rate form)]>
    (<["temperature" := Form.temperature form]>
    (<["spo2" := inject_Z (Form.spo2 form)]> ∅)))) in
  let '(risk_score, risk_level, recommendation) :=
    assess (Form.age form) (Form.symptoms form) vitals (Form.conditions form) in
  {| Visit.id := id;
     Visit.patient_name := Form.patient_name form;
     Visit.age := Form.age form;
     Visit.gender := Form.gender form;
     Visit.village := Form.village form;
     Visit.health_worker := Form.worker_name form;
     Visit.visit_date := Form.visit_date form;
     Visit.symptoms :=
       Form.symptoms form ++
       (if truthy (Form.other_symptoms form) then [Form.other_symptoms form]
        else []);
     Visit.conditions := Form.conditions form;
     Visit.vitals := vitals;
     Visit.risk_score := risk_score;
     Visit.risk_level := risk_level;
     Visit.recommendation := recommendation;
     Visit.timestamp := now |}.

(** The records a session leaves behind when [n] records were there before
    it: the forms in order, numbered from [n + 1]. *)
Fixpoint numbered_from (n : nat) (subs : list (Form.t * string)) : list Visit.t :=
  match subs with
  | [] => []
  | (form, now) :: subs =>
      visit_of form now (Z.of_nat n + 1) :: numbered_from (S n) subs
  end.

(** A filled-in form, for the examples. *)
Definition sample_form : Form.t := {|
  Form.patient_name := "Asha";
  Form.age := 70;
  Form.gender := "Female";
  Form.village := "Rampur";
  Form.worker_name := "Meena";
  Form.visit_date := "2026-01-15";
  Form.symptoms := ["chest_pain"; "breathlessness"];
  Form.other_symptoms := "";
  Form.conditions := ["heart_disease"];
  Form.bp_sys := 120;
  Form.bp_dia := 80;
  Form.heart_rate := 75;
  Form.temperature := 98.6;
  Form.spo2 := 90
|}.

Inductive outcome : Type :=
  | RequiredFieldsMissing
  | Recorded (visit_data : Visit.t).

(** The button handler with its guard on the required fields. *)
Definition on_submit (form : Form.t) (now : string) : store_m outcome :=
  if negb (truthy (Form.patient_name form)) || negb (truthy (Form.village form))
  then mret RequiredFieldsMissing
  else visit_data ← record_visit form now; mret (Recorded visit_data).

(** A session that records one visit after the other. *)
Fixpoint record_visits (subs : list (Form.t * string)) : store_m (list Visit.t) :=
  match subs with
  | [] => mret []
  | (form, now) :: subs =>
      v ← record_visit form now;
      vs ← record_visits subs;
      mret (v :: vs)
  end.

(** ** The dashboard query *)

(** The list comprehension over [data]. *)
Definition filtered_data
    (data : list Visit.t) (filter_risk filter_village : list string)
    : list Visit.t :=
  List.filter
    (λ d, py_in (Visit.risk_level d) filter_risk
          && py_in (Visit.village d) filter_village)
    data.

(** [l.sort(key=..., reverse=True)].  Python's sort is stable, and stays so
    under [reverse=True]; the result of a stable sort is determined by its
    input ([stable_sort_unique] below), so it is modelled by the simplest
    stable algorithm: insertion from the right, a new element going in front
    of the first element whose key is not larger. *)
Section SortByKey.
Context {A : Type} (key : A → Z).

Fixpoint insert_desc (x : A) (l : list A) : list A :=
  match l with
  | [] => [x]
  | y :: l' => if key x <? key y then y :: insert_desc x l' else x :: l
  end.

Definition sort_desc (l : list A) : list A := foldr insert_desc [] l.

(** Highest key first: no element has a smaller key than a later one. *)
Definition sorted_desc (l : list A) : Prop :=
  StronglySorted (λ x y, key y ≤ key x) l.

(** The elements with key [k], in list order. *)
Definition with_key (k : Z) (l : list A) : list A :=
  filter (λ x, key x = k) l.
End SortByKey.

(** A stored record with a given id, village and score, for the examples. *)
Definition sample_visit (id : Z) (village : string) (score : Z) : Visit.t := {|
  Visit.id := id;
  Visit.patient_name := "Asha";
  Visit.age := 70;
  Visit.gender := "Female";
  Visit.village := village;
  Visit.health_worker := "Meena";
  Visit.visit_date := "2026-01-15";
  Visit.symptoms := [];
  Visit.conditions := [];
  Visit.vitals := baseline_vitals;
  Visit.risk_score := score;
  Visit.risk_level := get_risk_level score;
  Visit.recommendation := get_recommendation (get_risk_level score) score;
  Visit.timestamp := "2026-01-15T10:00:00"
|}.

(** What the dashboard shows: filter, then sort by score, highest first. *)
Definition patient_list
    (data : list Visit.t) (filter_risk filter_village : list string)
    : list Visit.t :=
  sort_desc Visit.risk_score (filtered_data data filter_risk filter_village).

(** ** The rest of the two pages *)

(** The [vitals] dict the handler builds from the five number widgets. *)
Definition form_vitals (form : Form.t) : gmap string Q :=
  <["bp_systolic" := inject_Z (Form.bp_sys form)]>
  (<["bp_diastolic" := inject_Z (Form.bp_dia form)]>
  (<["heart_rate" := inject_Z (Form.heart_rate form)]>
  (<["temperature" := Form.temperature form]>
  (<["spo2" := inject_Z (Form.spo2 form)]> ∅)))).

(** The same form with another text in the "Other symptoms" box. *)
Definition with_other_symptoms (form : Form.t) (other : string) : Form.t := {|
  Form.patient_name := Form.patient_name form;
  Form.age := Form.age form;
  Form.gender := Form.gender form;
  Form.village := Form.village form;
  Form.worker_name := Form.worker_name form;
  Form.visit_date := Form.visit_date form;
  Form.symptoms := Form.symptoms form;
  Form.other_symptoms := other;
  Form.conditions := Form.conditions form;
  Form.bp_sys := Form.bp_sys form;
  Form.bp_dia := Form.bp_dia form;
  Form.heart_rate := Form.heart_rate form;
  Form.temperature := Form.temperature form;
  Form.spo2 := Form.spo2 form
|}.

(** The guard of the handler, [not (not patient_name or not village)]. *)
Definition required_filled (form : Form.t) : bool :=
  truthy (Form.patient_name form) && truthy (Form.village form).

(** A session of button presses, each through the guarded handler. *)
Fixpoint submit_all (subs : list (Form.t * string)) : store_m (list outcome) :=
  match subs with
  | [] => mret []
  | (form, now) :: subs =>
      o ← on_submit form now;
      os ← submit_all subs;
      mret (o :: os)
  end.

(** The submissions of a session that pass the guard. *)
Definition accepted (subs : list (Form.t * string)) : list (Form.t * string) :=
  List.filter (λ sub, required_filled sub.1) subs.

(** A record whose assessment fields agree with each other the way the
    handler computes them. *)
Definition consistent (v : Visit.t) : Prop :=
  0 ≤ Visit.risk_score v ≤ 100
  ∧ Visit.risk_level v = get_risk_level (Visit.risk_score v)
  ∧ Visit.recommendation v
    = get_recommendation (Visit.risk_level v) (Visit.risk_score v).

(** [sum(1 for d in data if d['risk_level'] == level)], the three risk
    metrics of the dashboard. *)
Definition count_level (level : string) (data : list Visit.t) : Z :=
  sum_points (λ _, 1)
    (List.filter (λ d, String.eqb (Visit.risk_level d) level) data).

(** The default of the risk filter. *)
Definition all_levels : list string := ["HIGH"; "MEDIUM"; "LOW"].

(** [list(set([d['village'] for d in data]))], the options and the default
    of the village filter.  Python leaves the order of a set to the hashes
    of its elements; here it is the order of [elements], and nothing below
    depends on it. *)
Definition villages (data : list Visit.t) : list string :=
  elements (list_to_set (Visit.village <$> data) : gset string).

(** The colour of a result or of a patient card. *)
Definition card_color (risk_level : string) : string :=
  if String.eqb risk_level "HIGH" then "red"
  else if String.eqb risk_level "MEDIUM" then "orange"
  else "green".

(** The record a button press stored, if it stored one. *)
Definition recorded (o : outcome) : option Visit.t :=
  match o with
  | RequiredFieldsMissing => None
  | Recorded visit_data => Some visit_data
  end.

(** * Properties of the scoring engine *)

Section Engine.
Implicit Types (age score : Z) (symptoms conditions : list string).
Implicit Types (vitals : gmap string Q).

Lemma symptom_step_points score symptom :
  symptom_step score symptom = score + symptom_points symptom.
Proof.
  unfold symptom_points, symptom_step.
  repeat case_match; lia.
Qed.

Lemma condition_step_points score condition :
  condition_step score condition = score + condition_points condition.
Proof.
  unfold condition_points, condition_step.
  repeat case_match; lia.
Qed.

Lemma symptom_loop symptoms score :
  fold_left symptom_step symptoms score
  = score + sum_points symptom_points symptoms.
Proof.
  revert score.
  induction symptoms as [|s symptoms IH]; intros score; simpl; [lia|].
  rewrite IH, symptom_step_points. lia.
Qed.

Lemma condition_loop conditions score :
  fold_left condition_step conditions score
  = score + sum_points condition_points conditions.
Proof.
  revert score.
  induction conditions as [|c conditions IH]; intros score; simpl; [lia|].
  rewrite IH, condition_step_points. lia.
Qed.

(** The code computes the sum of the four contributions. *)
Lemma raw_risk_score_split age symptoms vitals conditions :
  raw_risk_score age symptoms vitals conditions
  = age_points age + sum_points symptom_points symptoms
    + vitals_points vitals + sum_points condition_points conditions.
Proof.
  unfold raw_risk_score, age_points, vitals_points, bp_sys_points,
    bp_dia_points, heart_rate_points, temp_points, spo2_points.
  cbv zeta.
  rewrite condition_loop, symptom_loop.
  repeat case_match; lia.
Qed.

Lemma age_points_nonneg age : 0 ≤ age_points age.
Proof. unfold age_points. repeat case_match; lia. Qed.

Lemma symptom_points_pos symptom : 5 ≤ symptom_points symptom.
Proof. unfold symptom_points, symptom_step. repeat case_match; lia. Qed.

Lemma condition_points_nonneg condition : 0 ≤ condition_points condition.
Proof. unfold condition_points, condition_step. repeat case_match; lia. Qed.

Lemma vitals_points_nonneg vitals : 0 ≤ vitals_points vitals.
Proof.
  unfold vitals_points, bp_sys_points, bp_dia_points, heart_rate_points,
    temp_points, spo2_points.
  cbv zeta. repeat case_match; lia.
Qed.

Lemma sum_points_nonneg {A} (f : A → Z) (l : list A) :
  (∀ x, 0 ≤ f x) → 0 ≤ sum_points f l.
Proof.
  intros Hf. induction l as [|x l IH]; simpl; [lia|].
  specialize (Hf x). lia.
Qed.

Lemma sum_points_app {A} (f : A → Z) (l1 l2 : list A) :
  sum_points f (l1 ++ l2) = sum_points f l1 + sum_points f l2.
Proof. induction l1 as [|x l1 IH]; simpl; lia. Qed.

Lemma raw_risk_score_nonneg age symptoms vitals conditions :
  0 ≤ raw_risk_score age symptoms vitals conditions.
Proof.
  rewrite raw_risk_score_split.
  pose proof (age_points_nonneg age).
  pose proof (vitals_points_nonneg vitals).
  pose proof (sum_points_nonneg symptom_points symptoms) as Hs.
  pose proof (sum_points_nonneg condition_points conditions
                condition_points_nonneg).
  assert (0 ≤ sum_points symptom_points symptoms).
  { apply Hs. intros x. pose proof (symptom_points_pos x). lia. }
  lia.
Qed.

(** C1: for every age, symptom list, vitals mapping and condition list the
    score returned by [calculate_risk_score] lies in the closed interval
    [0, 100]; with every critical symptom and every high-risk condition
    present (raw sum 130 at age 30 with baseline vitals) it is exactly
    100. *)
Theorem calculate_risk_score_range age symptoms vitals conditions :
  0 ≤ calculate_risk_score age symptoms vitals conditions ≤ 100
  ∧ raw_risk_score 30 critical_symptoms ∅ high_risk_conditions = 130
  ∧ calculate_risk_score 30 critical_symptoms ∅ high_risk_conditions = 100.
Proof.
  split; [|split; vm_compute; reflexivity].
  unfold calculate_risk_score.
  pose proof (raw_risk_score_nonneg age symptoms vitals conditions).
  lia.
Qed.

(** C2: [get_risk_level] puts every score in exactly one tier, each tier
    including its lower bound: HIGH from 60, MEDIUM from 30 to 59, LOW
    below 30; 29 is LOW, 30 and 59 are MEDIUM, 60 is HIGH; a larger score
    never gets a lower tier. *)
Theorem get_risk_level_tiers score score' :
  (get_risk_level score = "HIGH" ↔ 60 ≤ score)
  ∧ (get_risk_level score = "MEDIUM" ↔ 30 ≤ score < 60)
  ∧ (get_risk_level score = "LOW" ↔ score < 30)
  ∧ get_risk_level 29 = "LOW"
  ∧ get_risk_level 30 = "MEDIUM"
  ∧ get_risk_level 59 = "MEDIUM"
  ∧ get_risk_level 60 = "HIGH"
  ∧ (score ≤ score' →
     (level_rank (get_risk_level score)
      ≤ level_rank (get_risk_level score'))%nat).
Proof.
  unfold get_risk_level.
  destruct (Z.geb_spec score 60), (Z.geb_spec score 30),
    (Z.geb_spec score' 60), (Z.geb_spec score' 30);
    repeat split; intros; try discriminate; try reflexivity;
    try lia.
  all: vm_compute; lia.
Qed.

Lemma get_risk_level_tiers_witness :
  (level_rank (get_risk_level 29) ≤ level_rank (get_risk_level 60))%nat.
Proof.
  destruct (get_risk_level_tiers 29 60) as (_ & _ & _ & _ & _ & _ & _ & Hmono).
  apply Hmono. lia.
Defined.

(** C9: the recommendation depends on the level only: two calls with the
    same level and any two scores return the same string, which is one of
    three distinct fixed texts: the urgent referral for HIGH, the 48-hour
    follow-up for MEDIUM, home care for LOW. *)
Theorem get_recommendation_by_level (risk_level : string) score score' :
  get_recommendation risk_level score = get_recommendation risk_level score'
  ∧ get_recommendation risk_level score
    ∈ ["⚠️ URGENT REFERRAL TO PHC/HOSPITAL";
       "📋 Schedule Follow-up within 48 hours";
       "✅ Home Care with monitoring"]
  ∧ NoDup ["⚠️ URGENT REFERRAL TO PHC/HOSPITAL";
           "📋 Schedule Follow-up within 48 hours";
           "✅ Home Care with monitoring"]
  ∧ get_recommendation "HIGH" score = "⚠️ URGENT REFERRAL TO PHC/HOSPITAL"
  ∧ get_recommendation "MEDIUM" score = "📋 Schedule Follow-up within 48 hours"
  ∧ get_recommendation "LOW" score = "✅ Home Care with monitoring".
Proof.
  split; [reflexivity|].
  split.
  { unfold get_recommendation. repeat case_match; set_solver. }
  split; [|repeat split].
  compute_done.
Qed.

(** C5: age 70 with chest pain and breathlessness, heart disease and an
    SpO2 of 90 (the other vitals absent, or at their baseline) adds up to
    20 + 25 + 25 + 15 + 20 = 105, which is capped to 100, level HIGH, with
    the urgent-referral text. *)
Theorem assess_age70_chest_pain :
  let symptoms := ["chest_pain"; "breathlessness"] in
  let conditions := ["heart_disease"] in
  ∀ vitals, vitals = {["spo2" := 90%Q]} ∨ vitals = <["spo2" := 90%Q]> baseline_vitals →
  age_points 70 = 20
  ∧ symptom_points "chest_pain" = 25
  ∧ symptom_points "breathlessness" = 25
  ∧ condition_points "heart_disease" = 15
  ∧ spo2_points vitals = 20
  ∧ vitals_points vitals = 20
  ∧ raw_risk_score 70 symptoms vitals conditions = 105
  ∧ calculate_risk_score 70 symptoms vitals conditions = 100
  ∧ assess 70 symptoms vitals conditions
    = (100, "HIGH", "⚠️ URGENT REFERRAL TO PHC/HOSPITAL").
Proof.
  intros symptoms conditions vitals [-> | ->];
    repeat split; vm_compute; reflexivity.
Qed.

Lemma assess_age70_chest_pain_witness :
  assess 70 ["chest_pain"; "breathlessness"] {["spo2" := 90%Q]} ["heart_disease"]
  = (100, "HIGH", "⚠️ URGENT REFERRAL TO PHC/HOSPITAL").
Proof.
  apply (assess_age70_chest_pain {["spo2" := 90%Q]}).
  left. reflexivity.
Defined.

Lemma dict_get_absent vitals key dflt :
  dict_get (delete key vitals) key dflt = dflt.
Proof. unfold dict_get. by rewrite lookup_delete_eq. Qed.

(** C6: an absent vital reads as its baseline (120, 80, 75, 98.6, 98), and
    a vital that is absent trips no threshold: its check adds 0.  So no
    vitals at all, or all five at baseline, add 0, and age 30 with no
    symptom, the condition "none" and baseline vitals scores 0, level
    LOW. *)
Theorem baseline_vitals_score_zero vitals :
  (dict_get ∅ "bp_systolic" 120 = 120%Q
   ∧ dict_get ∅ "bp_diastolic" 80 = 80%Q
   ∧ dict_get ∅ "heart_rate" 75 = 75%Q
   ∧ dict_get ∅ "temperature" 98.6 = 98.6%Q
   ∧ dict_get ∅ "spo2" 98 = 98%Q)
  ∧ (bp_sys_points (delete "bp_systolic" vitals) = 0
     ∧ bp_dia_points (delete "bp_diastolic" vitals) = 0
     ∧ heart_rate_points (delete "heart_rate" vitals) = 0
     ∧ temp_points (delete "temperature" vitals) = 0
     ∧ spo2_points (delete "spo2" vitals) = 0)
  ∧ vitals_points ∅ = 0
  ∧ vitals_points baseline_vitals = 0
  ∧ calculate_risk_score 30 [] ∅ ["none"] = 0
  ∧ calculate_risk_score 30 [] baseline_vitals ["none"] = 0
  ∧ assess 30 [] baseline_vitals ["none"]
    = (0, "LOW", "✅ Home Care with monitoring").
Proof.
  split; [repeat split|].
  split.
  { unfold bp_sys_points, bp_dia_points, heart_rate_points, temp_points,
      spo2_points.
    rewrite !dict_get_absent. repeat split. }
  repeat split; vm_compute; reflexivity.
Qed.

(** C10: one more symptom tag, or one more condition tag, put anywhere in
    its list never lowers the score, whatever the age and the vitals. *)
Theorem calculate_risk_score_monotone
    age vitals (tag : string) (s1 s2 c1 c2 : list string) :
  calculate_risk_score age (s1 ++ s2) vitals (c1 ++ c2)
    ≤ calculate_risk_score age (s1 ++ tag :: s2) vitals (c1 ++ c2)
  ∧ calculate_risk_score age (s1 ++ s2) vitals (c1 ++ c2)
    ≤ calculate_risk_score age (s1 ++ s2) vitals (c1 ++ tag :: c2).
Proof.
  unfold calculate_risk_score.
  rewrite !raw_risk_score_split, !sum_points_app. simpl.
  pose proof (symptom_points_pos tag).
  pose proof (condition_points_nonneg tag).
  lia.
Qed.
End Engine.

(** * Properties of the visit store *)

Section Store.
Implicit Types (disk : backing) (data : list Visit.t).
Implicit Types (form : Form.t) (now : string).
Implicit Types (subs : list (Form.t * string)).

(** One append: the id is the number of records read back, plus one, and
    the new record goes to the end of the document. *)
Lemma record_visit_run form now disk data :
  load_data disk = inr (data, disk) →
  let v := visit_of form now (Z.of_nat (length data) + 1) in
  record_visit form now disk = inr (v, Document (data ++ [v])).
Proof.
  intros Hload. unfold record_visit, mbind, store_bind, mret, store_ret.
  rewrite Hload. cbv beta iota zeta. rewrite Hload. reflexivity.
Qed.

Lemma load_data_document data :
  load_data (Document data) = inr (data, Document data).
Proof. reflexivity. Qed.

Lemma record_visits_run subs : ∀ disk data,
  load_data disk = inr (data, disk) →
  ∃ disk', record_visits subs disk
           = inr (numbered_from (length data) subs, disk')
     ∧ load_data disk'
       = inr (data ++ numbered_from (length data) subs, disk').
Proof.
  induction subs as [|[form now] subs IH]; intros disk data Hload.
  - exists disk. simpl. by rewrite app_nil_r.
  - pose proof (record_visit_run form now disk data Hload) as Hrun.
    cbv zeta in Hrun.
    destruct (IH (Document (data ++ [visit_of form now (Z.of_nat (length data) + 1)]))
                (data ++ [visit_of form now (Z.of_nat (length data) + 1)])
                (load_data_document _)) as (disk' & Hrest & Hload').
    rewrite length_app in Hrest, Hload'. simpl in Hrest, Hload'.
    replace (length data + 1)%nat with (S (length data)) in Hrest, Hload' by lia.
    exists disk'. split.
    + simpl. unfold mbind, store_bind at 1. rewrite Hrun.
      unfold store_bind. rewrite Hrest. reflexivity.
    + rewrite Hload'. by rewrite <- app_assoc.
Qed.

Lemma numbered_from_length n subs :
  length (numbered_from n subs) = length subs.
Proof.
  revert n. induction subs as [|[form now] subs IH]; intros n; simpl;
    [done|by rewrite IH].
Qed.

Lemma numbered_from_ids n subs :
  Visit.id <$> numbered_from n subs
  = Z.of_nat <$> seq (S n) (length subs).
Proof.
  revert n. induction subs as [|[form now] subs IH]; intros n; simpl; [done|].
  rewrite IH. f_equal. unfold visit_of. simpl. lia.
Qed.

Lemma numbered_from_lookup n subs i form now :
  subs !! i = Some (form, now) →
  numbered_from n subs !! i = Some (visit_of form now (Z.of_nat (n + i) + 1)).
Proof.
  revert n i. induction subs as [|[form' now'] subs IH]; intros n i; [done|].
  destruct i as [|i]; simpl.
  - intros [= -> ->]. by rewrite Nat.add_0_r.
  - intros Hi. rewrite (IH (S n) i Hi). do 3 f_equal. lia.
Qed.

(** C3: a session of N appends on an empty store (no file yet, or a
    document with no record) succeeds and leaves exactly N records, in the
    order they were submitted, with ids 1, 2, ..., N: no gap, no
    duplicate.  Reading the store afterwards returns these records.  Every
    single append gives the new record the number of records on disk
    before it, plus one, and puts it at the end. *)
Theorem record_visits_sequential_ids subs disk :
  load_data disk = inr ([], disk) →
  ∃ vs disk',
    record_visits subs disk = inr (vs, disk')
    ∧ load_data disk' = inr (vs, disk')
    ∧ length vs = length subs
    ∧ Visit.id <$> vs = Z.of_nat <$> seq 1 (length subs)
    ∧ NoDup (Visit.id <$> vs)
    ∧ (∀ i form now,
         subs !! i = Some (form, now) →
         vs !! i = Some (visit_of form now (Z.of_nat i + 1)))
    ∧ (∀ form now disk0 data,
         load_data disk0 = inr (data, disk0) →
         ∃ v, record_visit form now disk0 = inr (v, Document (data ++ [v]))
              ∧ Visit.id v = Z.of_nat (length data) + 1).
Proof.
  intros Hload.
  destruct (record_visits_run subs disk [] Hload) as (disk' & Hrun & Hload').
  simpl in Hrun, Hload'.
  exists (numbered_from 0 subs), disk'.
  split; [done|]. split; [done|].
  split; [apply numbered_from_length|].
  split; [apply numbered_from_ids|].
  split.
  { rewrite numbered_from_ids. apply (NoDup_fmap_2 _), NoDup_seq. }
  split.
  { intros i form now Hi. by rewrite (numbered_from_lookup 0 subs i form now Hi). }
  intros form now disk0 data Hload0.
  eexists. split; [by apply record_visit_run|reflexivity].
Qed.

Lemma record_visits_sequential_ids_witness :
  ∃ vs disk',
    record_visits [(sample_form, "t1"); (sample_form, "t2"); (sample_form, "t3")]
      NoFile = inr (vs, disk')
    ∧ load_data disk' = inr (vs, disk')
    ∧ length vs = 3%nat
    ∧ Visit.id <$> vs = [1; 2; 3].
Proof.
  destruct (record_visits_sequential_ids
              [(sample_form, "t1"); (sample_form, "t2"); (sample_form, "t3")]
              NoFile eq_refl)
    as (vs & disk' & Hrun & Hload & Hlen & Hids & _).
  exists vs, disk'. auto.
Defined.

(** C4, as the code has it: with no backing file [load_data] returns the
    empty list and raises nothing; with a file that cannot be parsed it does
    not return the empty list: the decode error of [json.load] reaches the
    caller. *)
Theorem load_data_missing_or_unparseable :
  load_data NoFile = inr ([], NoFile)
  ∧ load_data Unparseable = inl JSONDecodeError
  ∧ (∀ data disk', load_data Unparseable ≠ inr (data, disk')).
Proof.
  split; [reflexivity|]. split; [reflexivity|].
  intros data disk' Hload. discriminate Hload.
Qed.

(** C4 as stated fails: on an unparseable file [load_data] raises, it does
    not return the empty list. *)
Lemma load_data_unparseable_not_empty :
  load_data Unparseable = inl JSONDecodeError
  ∧ ¬ (∀ disk, disk = NoFile ∨ disk = Unparseable →
               ∃ disk', load_data disk = inr ([], disk')).
Proof.
  split; [reflexivity|].
  intros Hclaim.
  destruct (Hclaim Unparseable (or_intror eq_refl)) as [disk' Hload].
  discriminate Hload.
Qed.
End Store.

(** * Properties of the dashboard query *)

Section Filter.
Implicit Types (data : list Visit.t) (filter_risk filter_village : list string).

Lemma py_in_spec (x : string) (l : list string) : py_in x l = true ↔ x ∈ l.
Proof. unfold py_in. by rewrite bool_decide_eq_true. Qed.

Lemma filtered_data_filter data filter_risk filter_village :
  filtered_data data filter_risk filter_village
  = filter (λ d, Visit.risk_level d ∈ filter_risk
                 ∧ Visit.village d ∈ filter_village) data.
Proof.
  unfold filtered_data.
  induction data as [|d data IH]; [done|].
  rewrite filter_cons. simpl. rewrite IH.
  unfold py_in.
  case_decide as Hd.
  - destruct Hd as [Hr Hv]. by rewrite !bool_decide_true.
  - destruct (decide (Visit.risk_level d ∈ filter_risk)) as [Hr|Hr].
    + rewrite (bool_decide_true _ Hr), bool_decide_false; [done|]. tauto.
    + by rewrite (bool_decide_false _ Hr).
Qed.

(** C7: the filter keeps exactly the records whose level is among the
    chosen levels and whose village is among the chosen villages, in the
    order of the store and as often as they occur there; with no level
    chosen, or no village chosen, it keeps nothing, whatever the other
    choice is. *)
Theorem filtered_data_exact data filter_risk filter_village :
  (∀ d, d ∈ filtered_data data filter_risk filter_village
        ↔ d ∈ data ∧ Visit.risk_level d ∈ filter_risk
          ∧ Visit.village d ∈ filter_village)
  ∧ filtered_data data filter_risk filter_village
    = filter (λ d, Visit.risk_level d ∈ filter_risk
                   ∧ Visit.village d ∈ filter_village) data
  ∧ filtered_data data filter_risk filter_village `sublist_of` data
  ∧ filtered_data data [] filter_village = []
  ∧ filtered_data data filter_risk [] = [].
Proof.
  split.
  { intros d. rewrite filtered_data_filter, list_elem_of_filter. tauto. }
  split; [apply filtered_data_filter|].
  split; [rewrite filtered_data_filter; apply sublist_filter|].
  split.
  - rewrite filtered_data_filter.
    induction data as [|d data IH]; [done|].
    rewrite filter_cons_False; [done|]. rewrite elem_of_nil. tauto.
  - rewrite filtered_data_filter.
    induction data as [|d data IH]; [done|].
    rewrite filter_cons_False; [done|]. rewrite elem_of_nil. tauto.
Qed.
End Filter.


Section Sort.
Context {A : Type} (key : A → Z).
Implicit Types (x y : A) (l : list A) (k : Z).

Lemma insert_desc_perm x l : insert_desc key x l ≡ₚ x :: l.
Proof.
  induction l as [|y l IH]; simpl; [done|].
  case_match; [|done].
  rewrite IH. apply Permutation_swap.
Qed.

Lemma sort_desc_perm l : sort_desc key l ≡ₚ l.
Proof.
  induction l as [|x l IH]; simpl; [done|].
  by rewrite insert_desc_perm, IH.
Qed.

Lemma insert_desc_sorted x l :
  sorted_desc key l → sorted_desc key (insert_desc key x l).
Proof.
  unfold sorted_desc.
  induction l as [|y l IH]; simpl; intros Hs.
  - repeat constructor.
  - apply StronglySorted_inv in Hs as [Hl Hy].
    destruct (Z.ltb_spec (key x) (key y)) as [Hlt|Hge].
    + constructor; [by apply IH|].
      rewrite insert_desc_perm. constructor; [lia|done].
    + constructor; [by constructor|].
      constructor; [done|].
      eapply Forall_impl; [exact Hy|]. simpl. intros z Hz. lia.
Qed.

Lemma sort_desc_sorted l : sorted_desc key (sort_desc key l).
Proof.
  induction l as [|x l IH]; simpl.
  - constructor.
  - by apply insert_desc_sorted.
Qed.

Lemma insert_desc_with_key k x l :
  with_key key k (insert_desc key x l) = with_key key k (x :: l).
Proof.
  unfold with_key.
  induction l as [|y l IH]; simpl; [done|].
  destruct (Z.ltb_spec (key x) (key y)) as [Hlt|Hge]; [|done].
  rewrite (filter_cons _ y), IH, !filter_cons.
  repeat case_decide; try done; lia.
Qed.

Lemma sort_desc_with_key k l :
  with_key key k (sort_desc key l) = with_key key k l.
Proof.
  induction l as [|x l IH]; simpl; [done|].
  rewrite insert_desc_with_key. unfold with_key in *.
  by rewrite !filter_cons, IH.
Qed.

(** A list sorted by descending key is determined by its runs of equal
    keys: two such lists with the same elements of every key, in the same
    order, are equal.  So every stable descending sort returns what
    [sort_desc] returns. *)
Lemma sorted_desc_unique l1 : ∀ l2,
  sorted_desc key l1 → sorted_desc key l2 →
  (∀ k, with_key key k l1 = with_key key k l2) →
  l1 = l2.
Proof.
  unfold sorted_desc, with_key.
  induction l1 as [|x l1 IH]; intros [|y l2] Hs1 Hs2 Hk; [done| | |].
  - specialize (Hk (key y)). by rewrite filter_cons_True in Hk.
  - specialize (Hk (key x)). by rewrite filter_cons_True in Hk.
  - apply StronglySorted_inv in Hs1 as [Hs1 Hx].
    apply StronglySorted_inv in Hs2 as [Hs2 Hy].
    assert (key y = key x) as Hxy.
    { destruct (decide (key y = key x)) as [|Hne]; [done|exfalso].
      assert (x ∈ l2) as Hx2.
      { assert (x ∈ filter (λ z, key z = key x) (y :: l2)) as Hin.
        { rewrite <- Hk, filter_cons_True by done. apply list_elem_of_here. }
        rewrite filter_cons_False in Hin by done.
        by apply list_elem_of_filter in Hin as [_ ?]. }
      assert (y ∈ l1) as Hy1.
      { assert (y ∈ filter (λ z, key z = key y) (x :: l1)) as Hin.
        { rewrite Hk, filter_cons_True by done. apply list_elem_of_here. }
        rewrite filter_cons_False in Hin by done.
        by apply list_elem_of_filter in Hin as [_ ?]. }
      rewrite Forall_forall in Hx, Hy.
      specialize (Hx y Hy1). specialize (Hy x Hx2). simpl in Hx, Hy. lia. }
    pose proof (Hk (key x)) as Hhd.
    rewrite !filter_cons_True in Hhd by done.
    injection Hhd as -> Htl.
    f_equal. apply IH; [done..|].
    intros k. destruct (decide (key y = k)) as [<-|Hne]; [done|].
    specialize (Hk k). by rewrite !filter_cons_False in Hk.
Qed.

Lemma stable_sort_unique (sort : list A → list A) l :
  sorted_desc key (sort l) →
  (∀ k, with_key key k (sort l) = with_key key k l) →
  sort l = sort_desc key l.
Proof.
  intros Hsorted Hstable.
  apply sorted_desc_unique; [done|apply sort_desc_sorted|].
  intros k. by rewrite Hstable, sort_desc_with_key.
Qed.
End Sort.

Section Dashboard.
Implicit Types (l : list Visit.t) (a b c d : Visit.t).

(** C8: the sort by score is a stable descending sort.  Its output holds
    the same records as its input, no record comes before one with a higher
    score, and for every score the records with that score come out in the
    order they went in.  Records with scores 40, 40, 80, 10 come out as the
    80, the first 40, the second 40, the 10. *)
Theorem sort_by_score_stable l :
  sort_desc Visit.risk_score l ≡ₚ l
  ∧ sorted_desc Visit.risk_score (sort_desc Visit.risk_score l)
  ∧ (∀ k, with_key Visit.risk_score k (sort_desc Visit.risk_score l)
          = with_key Visit.risk_score k l)
  ∧ (∀ a b c d,
       Visit.risk_score a = 40 → Visit.risk_score b = 40 →
       Visit.risk_score c = 80 → Visit.risk_score d = 10 →
       sort_desc Visit.risk_score [a; b; c; d] = [c; a; b; d]).
Proof.
  split; [apply sort_desc_perm|].
  split; [apply sort_desc_sorted|].
  split; [intros k; apply sort_desc_with_key|].
  intros a b c d Ha Hb Hc Hd.
  unfold sort_desc.
  repeat (progress (simpl; rewrite ?Ha, ?Hb, ?Hc, ?Hd)).
  reflexivity.
Qed.

Lemma sort_by_score_stable_witness :
  sort_desc Visit.risk_score
    [sample_visit 1 "Rampur" 40; sample_visit 2 "Sitapur" 40;
     sample_visit 3 "Rampur" 80; sample_visit 4 "Sitapur" 10]
  = [sample_visit 3 "Rampur" 80; sample_visit 1 "Rampur" 40;
     sample_visit 2 "Sitapur" 40; sample_visit 4 "Sitapur" 10].
Proof.
  destruct (sort_by_score_stable []) as (_ & _ & _ & Hexample).
  apply Hexample; reflexivity.
Defined.

(** The patient list of the dashboard is the filtered records, highest
    score first, ties in the order of the store. *)
Lemma patient_list_stable data (filter_risk filter_village : list string) k :
  sorted_desc Visit.risk_score (patient_list data filter_risk filter_village)
  ∧ with_key Visit.risk_score k (patient_list data filter_risk filter_village)
    = with_key Visit.risk_score k
        (filtered_data data filter_risk filter_village).
Proof.
  unfold patient_list. split; [apply sort_desc_sorted|apply sort_desc_with_key].
Qed.
End Dashboard.

Section Handler.
Implicit Types (form : Form.t) (now : string) (disk : backing).

(** The guard of the handler: with a name and a village the visit is
    recorded, otherwise the store is not touched. *)
Lemma on_submit_guard form now disk :
  on_submit form now disk
  = if truthy (Form.patient_name form) && truthy (Form.village form)
    then match record_visit form now disk with
         | inl e => inl e
         | inr (v, disk') => inr (Recorded v, disk')
         end
    else inr (RequiredFieldsMissing, disk).
Proof.
  unfold on_submit.
  destruct (truthy (Form.patient_name form)), (truthy (Form.village form));
    reflexivity.
Qed.
End Handler.

(** * Further properties of the scoring engine *)

Section EngineMore.
Implicit Types (age score : Z) (symptoms conditions : list string).
Implicit Types (vitals : gmap string Q) (tag : string).

Lemma sum_points_perm {A} (f : A → Z) (l1 l2 : list A) :
  l1 ≡ₚ l2 → sum_points f l1 = sum_points f l2.
Proof. induction 1; simpl; lia. Qed.

(** X1: the score does not depend on the order in which the symptoms or
    the conditions are listed. *)
Theorem score_order_independent age vitals symptoms symptoms' conditions conditions' :
  symptoms ≡ₚ symptoms' → conditions ≡ₚ conditions' →
  calculate_risk_score age symptoms vitals conditions
  = calculate_risk_score age symptoms' vitals conditions'.
Proof.
  intros Hs Hc. unfold calculate_risk_score.
  rewrite !raw_risk_score_split.
  by rewrite (sum_points_perm _ _ _ Hs), (sum_points_perm _ _ _ Hc).
Qed.

Lemma score_order_independent_witness :
  calculate_risk_score 30 ["fever"; "chest_pain"] ∅ ["copd"; "diabetes"]
  = calculate_risk_score 30 ["chest_pain"; "fever"] ∅ ["diabetes"; "copd"].
Proof.
  apply score_order_independent; apply Permutation_swap.
Defined.

Lemma sum_points_divide {A} (f : A → Z) (l : list A) (n : Z) :
  (∀ x, (n | f x)) → (n | sum_points f l).
Proof.
  intros Hf. induction l as [|x l IH]; simpl.
  - apply Z.divide_0_r.
  - by apply Z.divide_add_r.
Qed.

Lemma symptom_points_values tag :
  symptom_points tag = 25 ∨ symptom_points tag = 10 ∨ symptom_points tag = 5.
Proof. unfold symptom_points, symptom_step. repeat case_match; auto. Qed.

Lemma condition_points_values tag :
  condition_points tag = 15 ∨ condition_points tag = 10
  ∨ condition_points tag = 0.
Proof. unfold condition_points, condition_step. repeat case_match; auto. Qed.

Lemma vitals_points_divide vitals : (5 | vitals_points vitals).
Proof.
  unfold vitals_points, bp_sys_points, bp_dia_points, heart_rate_points,
    temp_points, spo2_points.
  cbv zeta. repeat case_match; simpl;
    match goal with |- (5 | ?n) => exists (n / 5); reflexivity end.
Qed.

(** X2: every score is a multiple of 5. *)
Theorem score_multiple_of_five age symptoms vitals conditions :
  (5 | calculate_risk_score age symptoms vitals conditions).
Proof.
  unfold calculate_risk_score. rewrite raw_risk_score_split.
  assert (5 | age_points age) as [a Ha].
  { unfold age_points. repeat case_match; [by exists 3|by exists 4|by exists 0]. }
  destruct (sum_points_divide symptom_points symptoms 5) as [s Hs].
  { intros x. destruct (symptom_points_values x) as [->|[->| ->]];
      [by exists 5|by exists 2|by exists 1]. }
  destruct (sum_points_divide condition_points conditions 5) as [c Hc].
  { intros x. destruct (condition_points_values x) as [->|[->| ->]];
      [by exists 3|by exists 2|by exists 0]. }
  destruct (vitals_points_divide vitals) as [v Hv].
  rewrite Ha, Hs, Hc, Hv.
  exists (Z.min (a + s + v + c) 20). lia.
Qed.

Lemma sum_points_filter_zero {A} (f : A → Z) (P : A → Prop)
    `{!∀ x, Decision (P x)} (l : list A) :
  (∀ x, ¬ P x → f x = 0) → sum_points f (filter P l) = sum_points f l.
Proof.
  intros Hzero. induction l as [|x l IH]; [done|].
  rewrite filter_cons. case_decide as HP; simpl; rewrite IH; [done|].
  rewrite (Hzero x HP). lia.
Qed.

(** X3: conditions outside the two scored lists are ignored: dropping them
    from the list leaves the score as it is.  The options "asthma", "tb",
    "kidney_disease" and "none" of the form are such conditions. *)
Theorem score_ignores_unscored_conditions age symptoms vitals conditions :
  calculate_risk_score age symptoms vitals conditions
  = calculate_risk_score age symptoms vitals
      (filter (λ c, c ∈ high_risk_conditions ∨ c ∈ moderate_risk_conditions)
         conditions)
  ∧ Forall (λ c, ¬ (c ∈ high_risk_conditions ∨ c ∈ moderate_risk_conditions))
      ["asthma"; "tb"; "kidney_disease"; "none"].
Proof.
  split.
  - unfold calculate_risk_score. rewrite !raw_risk_score_split.
    rewrite sum_points_filter_zero; [done|].
    intros c Hc. unfold condition_points, condition_step, py_in.
    rewrite !bool_decide_false; [done|tauto..].
  - repeat constructor; compute_done.
Qed.

(** X4: every listed symptom is worth at least 5 and at most 25 points, a
    condition at most 15, the age at most 20 and the vitals at most 70: the
    sum before the cap lies between 5 per symptom and 90 plus 25 per symptom
    plus 15 per condition, and the score is at least 5 per symptom up to the
    cap. *)
Theorem raw_risk_score_bounds age symptoms vitals conditions :
  5 * Z.of_nat (length symptoms)
    ≤ raw_risk_score age symptoms vitals conditions
  ∧ raw_risk_score age symptoms vitals conditions
    ≤ 90 + 25 * Z.of_nat (length symptoms) + 15 * Z.of_nat (length conditions)
  ∧ Z.min (5 * Z.of_nat (length symptoms)) 100
    ≤ calculate_risk_score age symptoms vitals conditions.
Proof.
  assert (5 * Z.of_nat (length symptoms) ≤ sum_points symptom_points symptoms
          ≤ 25 * Z.of_nat (length symptoms)) as Hs.
  { induction symptoms as [|x l IH]; simpl length; simpl sum_points; [lia|].
    destruct (symptom_points_values x) as [->|[->| ->]]; lia. }
  assert (0 ≤ sum_points condition_points conditions
          ≤ 15 * Z.of_nat (length conditions)) as Hc.
  { induction conditions as [|x l IH]; simpl length; simpl sum_points; [lia|].
    destruct (condition_points_values x) as [->|[->| ->]]; lia. }
  assert (0 ≤ age_points age ≤ 20) as Ha.
  { unfold age_points. repeat case_match; lia. }
  assert (0 ≤ vitals_points vitals ≤ 70) as Hv.
  { unfold vitals_points, bp_sys_points, bp_dia_points, heart_rate_points,
      temp_points, spo2_points.
    cbv zeta. repeat case_match; lia. }
  unfold calculate_risk_score. rewrite raw_risk_score_split. lia.
Qed.

(** X5: the cap at 100 never changes the tier: the level and the
    recommendation of an assessment are those of the uncapped sum, urgent
    referral from 60, follow-up from 30 to 59, home care below 30. *)
Theorem assess_level_of_raw_sum age symptoms vitals conditions :
  let raw := raw_risk_score age symptoms vitals conditions in
  assess age symptoms vitals conditions
  = (Z.min raw 100, get_risk_level raw,
     get_recommendation (get_risk_level raw) raw)
  ∧ (get_risk_level (calculate_risk_score age symptoms vitals conditions)
     = "HIGH" ↔ 60 ≤ raw)
  ∧ (get_risk_level (calculate_risk_score age symptoms vitals conditions)
     = "MEDIUM" ↔ 30 ≤ raw < 60)
  ∧ (get_risk_level (calculate_risk_score age symptoms vitals conditions)
     = "LOW" ↔ raw < 30).
Proof.
  intros raw. unfold assess, calculate_risk_score. fold raw.
  assert (get_risk_level (Z.min raw 100) = get_risk_level raw) as ->.
  { unfold get_risk_level.
    destruct (Z.geb_spec (Z.min raw 100) 60), (Z.geb_spec raw 60),
      (Z.geb_spec (Z.min raw 100) 30), (Z.geb_spec raw 30); try done; lia. }
  split; [done|].
  unfold get_risk_level.
  destruct (Z.geb_spec raw 60), (Z.geb_spec raw 30);
    repeat split; intros; try discriminate; try reflexivity; lia.
Qed.
End EngineMore.

Section Vitals.
Implicit Types (vitals : gmap string Q) (form : Form.t) (q lo hi : Q).

Lemma Qgtb_false q hi : Qgtb q hi = false ↔ (q <= hi)%Q.
Proof.
  unfold Qgtb. rewrite negb_false_iff. apply Qle_bool_iff.
Qed.

Lemma Qltb_false q lo : Qltb q lo = false ↔ (lo <= q)%Q.
Proof.
  unfold Qltb. rewrite negb_false_iff. apply Qle_bool_iff.
Qed.

Lemma range_check_zero q lo hi (points : Z) :
  points ≠ 0 →
  (if Qgtb q hi || Qltb q lo then points else 0) = 0 ↔ (lo <= q <= hi)%Q.
Proof.
  intros Hpoints.
  rewrite <- (Qgtb_false q hi), <- (Qltb_false q lo).
  destruct (Qgtb q hi), (Qltb q lo); simpl; split;
    try tauto; try (intros [? ?]; discriminate); done.
Qed.

(** X6: the vitals add nothing exactly when every reading (or the baseline
    standing in for a missing one) is in its normal range, bounds included:
    systolic 90 to 140, diastolic 60 to 90, heart rate 50 to 100,
    temperature at most 101, SpO2 at least 94. *)
Theorem vitals_points_zero_iff_normal vitals :
  vitals_points vitals = 0
  ↔ (90 <= dict_get vitals "bp_systolic" 120 <= 140
     ∧ 60 <= dict_get vitals "bp_diastolic" 80 <= 90
     ∧ 50 <= dict_get vitals "heart_rate" 75 <= 100
     ∧ dict_get vitals "temperature" 98.6 <= 101
     ∧ 94 <= dict_get vitals "spo2" 98)%Q.
Proof.
  rewrite <- (range_check_zero (dict_get vitals "bp_systolic" 120) 90 140 15)
    by done.
  rewrite <- (range_check_zero (dict_get vitals "bp_diastolic" 80) 60 90 10)
    by done.
  rewrite <- (range_check_zero (dict_get vitals "heart_rate" 75) 50 100 15)
    by done.
  rewrite <- (Qgtb_false (dict_get vitals "temperature" 98.6) 101).
  rewrite <- (Qltb_false (dict_get vitals "spo2" 98) 94).
  unfold vitals_points, bp_sys_points, bp_dia_points, heart_rate_points,
    temp_points, spo2_points.
  cbv zeta.
  destruct (Qgtb (dict_get vitals "bp_systolic" 120) 140
            || Qltb (dict_get vitals "bp_systolic" 120) 90),
    (Qgtb (dict_get vitals "bp_diastolic" 80) 90
     || Qltb (dict_get vitals "bp_diastolic" 80) 60),
    (Qgtb (dict_get vitals "heart_rate" 75) 100
     || Qltb (dict_get vitals "heart_rate" 75) 50),
    (Qgtb (dict_get vitals "temperature" 98.6) 101),
    (Qltb (dict_get vitals "spo2" 98) 94);
    split; try (intros H; lia); try done;
    intros (? & ? & ? & ? & ?); try lia; discriminate.
Qed.

Lemma Qle_bool_inject_Z (a b : Z) :
  Qle_bool (inject_Z a) (inject_Z b) = (a <=? b).
Proof. unfold Qle_bool, inject_Z. simpl. by rewrite !Z.mul_1_r. Qed.

(** X7: the handler always passes all five vitals, so no baseline is ever
    used for a submitted form, and on the four integer widgets the checks
    are plain integer comparisons of the widget values. *)
Theorem form_vitals_points form :
  dom (form_vitals form)
  = ({["bp_systolic"; "bp_diastolic"; "heart_rate"; "temperature"; "spo2"]}
     : gset string)
  ∧ bp_sys_points (form_vitals form)
    = (if (Form.bp_sys form >? 140) || (Form.bp_sys form <? 90) then 15 else 0)
  ∧ bp_dia_points (form_vitals form)
    = (if (Form.bp_dia form >? 90) || (Form.bp_dia form <? 60) then 10 else 0)
  ∧ heart_rate_points (form_vitals form)
    = (if (Form.heart_rate form >? 100) || (Form.heart_rate form <? 50)
       then 15 else 0)
  ∧ temp_points (form_vitals form)
    = (if Qgtb (Form.temperature form) 101 then 10 else 0)
  ∧ spo2_points (form_vitals form)
    = (if Form.spo2 form <? 94 then 20 else 0).
Proof.
  split.
  { unfold form_vitals. rewrite !dom_insert_L, dom_empty_L. set_solver. }
  unfold bp_sys_points, bp_dia_points, heart_rate_points, temp_points,
    spo2_points, dict_get, form_vitals, Qgtb, Qltb.
  cbv zeta. simplify_map_eq.
  change 140%Q with (inject_Z 140). change 90%Q with (inject_Z 90).
  change 60%Q with (inject_Z 60). change 100%Q with (inject_Z 100).
  change 50%Q with (inject_Z 50). change 94%Q with (inject_Z 94).
  rewrite !Qle_bool_inject_Z.
  rewrite !Z.gtb_ltb, !Z.ltb_antisym.
  repeat split.
Qed.

(** X8: the colour shown with a score follows its tier: red from 60,
    orange from 30 to 59, green below 30. *)
Theorem card_color_of_score (score : Z) :
  (card_color (get_risk_level score) = "red" ↔ 60 ≤ score)
  ∧ (card_color (get_risk_level score) = "orange" ↔ 30 ≤ score < 60)
  ∧ (card_color (get_risk_level score) = "green" ↔ score < 30).
Proof.
  unfold get_risk_level.
  destruct (Z.geb_spec score 60), (Z.geb_spec score 30);
    repeat split; intros; try discriminate; try reflexivity; lia.
Qed.
End Vitals.

(** * Further properties of the visit store *)

Section StoreMore.
Implicit Types (disk : backing) (data : list Visit.t) (v d : Visit.t).
Implicit Types (form : Form.t) (now other : string).
Implicit Types (subs : list (Form.t * string)).

Lemma visit_of_consistent form now (id : Z) : consistent (visit_of form now id).
Proof.
  unfold consistent, visit_of, assess. simpl.
  split; [|done].
  unfold calculate_risk_score.
  pose proof (raw_risk_score_nonneg (Form.age form) (Form.symptoms form)
                (form_vitals form) (Form.conditions form)) as Hraw.
  unfold form_vitals in Hraw. lia.
Qed.

(** X9: what is typed in the "Other symptoms" box is stored with the visit
    (appended to the symptom list when it is not empty) but is not scored:
    the score, level and recommendation recorded are those of the selected
    symptoms alone, whatever the text. *)
Theorem record_visit_ignores_other_symptoms form other now disk data :
  load_data disk = inr (data, disk) →
  ∃ v v',
    record_visit form now disk = inr (v, Document (data ++ [v]))
    ∧ record_visit (with_other_symptoms form other) now disk
      = inr (v', Document (data ++ [v']))
    ∧ Visit.risk_score v' = Visit.risk_score v
    ∧ Visit.risk_level v' = Visit.risk_level v
    ∧ Visit.recommendation v' = Visit.recommendation v
    ∧ Visit.risk_score v
      = calculate_risk_score (Form.age form) (Form.symptoms form)
          (form_vitals form) (Form.conditions form)
    ∧ Visit.symptoms v'
      = Form.symptoms form ++ (if String.eqb other "" then [] else [other]).
Proof.
  intros Hload.
  exists (visit_of form now (Z.of_nat (length data) + 1)),
    (visit_of (with_other_symptoms form other) now (Z.of_nat (length data) + 1)).
  split; [by apply record_visit_run|].
  split; [by apply record_visit_run|].
  repeat split.
  unfold visit_of, truthy. simpl. by destruct (String.eqb other "").
Qed.

Lemma record_visit_ignores_other_symptoms_witness :
  ∃ v v',
    record_visit sample_form "t1" NoFile = inr (v, Document ([] ++ [v]))
    ∧ record_visit (with_other_symptoms sample_form "itching") "t1" NoFile
      = inr (v', Document ([] ++ [v']))
    ∧ Visit.risk_score v' = Visit.risk_score v
    ∧ Visit.symptoms v' = ["chest_pain"; "breathlessness"; "itching"].
Proof.
  destruct (record_visit_ignores_other_symptoms sample_form "itching" "t1"
              NoFile [] eq_refl)
    as (v & v' & Hv & Hv' & Hscore & _ & _ & _ & Hsym).
  exists v, v'. auto.
Defined.

(** X10: appending keeps the store consistent: if in every stored record
    the score is in [0, 100], the level is the level of the score and the
    recommendation the one of the level, the same holds after a visit has
    been recorded; the new record has one of the three levels. *)
Theorem record_visit_keeps_consistent form now disk data v disk' :
  load_data disk = inr (data, disk) →
  Forall consistent data →
  record_visit form now disk = inr (v, disk') →
  consistent v
  ∧ Visit.risk_level v ∈ all_levels
  ∧ load_data disk' = inr (data ++ [v], disk')
  ∧ Forall consistent (data ++ [v]).
Proof.
  intros Hload Hdata Hrun.
  rewrite (record_visit_run form now disk data Hload) in Hrun.
  injection Hrun as <- <-.
  pose proof (visit_of_consistent form now (Z.of_nat (length data) + 1)) as Hv.
  split; [done|].
  split.
  { destruct Hv as (_ & -> & _). unfold get_risk_level, all_levels.
    repeat case_match; set_solver. }
  split; [done|].
  apply Forall_app. split; [done|by constructor].
Qed.

Lemma record_visit_keeps_consistent_witness :
  consistent (visit_of sample_form "t1" 1).
Proof.
  apply (record_visit_keeps_consistent sample_form "t1" NoFile []
           (visit_of sample_form "t1" 1)
           (Document [visit_of sample_form "t1" 1])).
  - reflexivity.
  - constructor.
  - reflexivity.
Defined.


End StoreMore.

Section Sessions.
Implicit Types (disk : backing) (data : list Visit.t) (v d : Visit.t).
Implicit Types (form : Form.t) (now : string).
Implicit Types (subs : list (Form.t * string)).

Lemma numbered_from_consistent subs : ∀ n, Forall consistent (numbered_from n subs).
Proof.
  induction subs as [|[form now] subs IH]; intros n; simpl; constructor.
  - apply visit_of_consistent.
  - apply IH.
Qed.

Lemma submit_all_run subs : ∀ disk data,
  load_data disk = inr (data, disk) →
  ∃ os disk',
    submit_all subs disk = inr (os, disk')
    ∧ length os = length subs
    ∧ omap recorded os = numbered_from (length data) (accepted subs)
    ∧ load_data disk'
      = inr (data ++ numbered_from (length data) (accepted subs), disk').
Proof.
  induction subs as [|[form now] subs IH]; intros disk data Hload.
  - exists [], disk. simpl. by rewrite app_nil_r.
  - simpl submit_all. unfold mbind, store_bind at 1.
    rewrite on_submit_guard. unfold accepted. simpl List.filter.
    fold (required_filled form). fold (accepted subs).
    destruct (required_filled form).
    + rewrite (record_visit_run form now disk data Hload). cbv zeta.
      destruct (IH (Document (data ++ [visit_of form now (Z.of_nat (length data) + 1)]))
                  (data ++ [visit_of form now (Z.of_nat (length data) + 1)])
                  eq_refl) as (os & disk' & Hrun & Hlen & Hrec & Hload').
      rewrite length_app in Hrec, Hload'. simpl in Hrec, Hload'.
      replace (length data + 1)%nat with (S (length data)) in Hrec, Hload' by lia.
      exists (Recorded (visit_of form now (Z.of_nat (length data) + 1)) :: os), disk'.
      unfold store_bind. rewrite Hrun.
      split; [reflexivity|]. split; [simpl; by rewrite Hlen|].
      split.
      { change (visit_of form now (Z.of_nat (length data) + 1)
                  :: omap recorded os
                = visit_of form now (Z.of_nat (length data) + 1)
                  :: numbered_from (S (length data)) (accepted subs)).
        by rewrite Hrec. }
      rewrite Hload'. simpl. by rewrite <- app_assoc.
    + destruct (IH disk data Hload) as (os & disk' & Hrun & Hlen & Hrec & Hload').
      exists (RequiredFieldsMissing :: os), disk'.
      unfold store_bind. rewrite Hrun.
      split; [reflexivity|]. split; [simpl; by rewrite Hlen|].
      split; [exact Hrec|exact Hload'].
Qed.

(** X12: in a session of button presses on an empty store, the presses
    with an empty name or village store nothing and use up no id: the store
    ends with one record per accepted press, in order, numbered 1, 2, ...
    without gaps, every one of them consistent, and these are the records
    the presses reported. *)
Theorem submit_all_numbers_accepted subs disk :
  load_data disk = inr ([], disk) →
  ∃ os disk' stored,
    submit_all subs disk = inr (os, disk')
    ∧ length os = length subs
    ∧ load_data disk' = inr (stored, disk')
    ∧ omap recorded os = stored
    ∧ stored = numbered_from 0 (accepted subs)
    ∧ Visit.id <$> stored = Z.of_nat <$> seq 1 (length (accepted subs))
    ∧ Forall consistent stored.
Proof.
  intros Hload.
  destruct (submit_all_run subs disk [] Hload)
    as (os & disk' & Hrun & Hlen & Hrec & Hload').
  simpl in Hrec, Hload'.
  exists os, disk', (numbered_from 0 (accepted subs)).
  repeat split; try done.
  - apply numbered_from_ids.
  - apply numbered_from_consistent.
Qed.

Lemma submit_all_numbers_accepted_witness :
  ∃ os disk' stored,
    submit_all
      [(sample_form, "t1");
       (with_other_symptoms sample_form "itching", "t2")] NoFile
    = inr (os, disk')
    ∧ load_data disk' = inr (stored, disk')
    ∧ Visit.id <$> stored = [1; 2].
Proof.
  destruct (submit_all_numbers_accepted
              [(sample_form, "t1");
               (with_other_symptoms sample_form "itching", "t2")] NoFile eq_refl)
    as (os & disk' & stored & Hrun & _ & Hload & _ & _ & Hids & _).
  exists os, disk', stored. auto.
Defined.

(** X13: numbering is kept from any store numbered 1 to n, not only from
    the empty one: after m more visits the ids are 1 to n + m, all
    different. *)
Theorem record_visits_keep_numbering subs data :
  Visit.id <$> data = Z.of_nat <$> seq 1 (length data) →
  ∃ vs disk',
    record_visits subs (Document data) = inr (vs, disk')
    ∧ load_data disk' = inr (data ++ vs, disk')
    ∧ Visit.id <$> data ++ vs
      = Z.of_nat <$> seq 1 (length data + length subs)
    ∧ NoDup (Visit.id <$> data ++ vs).
Proof.
  intros Hids.
  destruct (record_visits_run subs (Document data) data eq_refl)
    as (disk' & Hrun & Hload).
  exists (numbered_from (length data) subs), disk'.
  split; [done|]. split; [done|].
  assert (Visit.id <$> data ++ numbered_from (length data) subs
          = Z.of_nat <$> seq 1 (length data + length subs)) as Hall.
  { rewrite fmap_app, Hids, numbered_from_ids, seq_app, fmap_app. done. }
  split; [done|].
  rewrite Hall. apply (NoDup_fmap_2 _), NoDup_seq.
Qed.

Lemma record_visits_keep_numbering_witness :
  ∃ vs disk',
    record_visits [(sample_form, "t2")] (Document [sample_visit 1 "Rampur" 40])
    = inr (vs, disk')
    ∧ Visit.id <$> [sample_visit 1 "Rampur" 40] ++ vs = [1; 2].
Proof.
  destruct (record_visits_keep_numbering [(sample_form, "t2")]
              [sample_visit 1 "Rampur" 40] eq_refl)
    as (vs & disk' & Hrun & _ & Hids & _).
  exists vs, disk'. auto.
Defined.

(** X14: the new id is read off the length of the store, so the ids stay
    unique after an append exactly when they were unique and no stored
    record already carries the id length + 1.  A store from which record 1
    was taken out by hand, leaving the record with id 2, gets a second
    record with id 2. *)
Theorem record_visit_ids_unique_iff form now data :
  (∃ v, record_visit form now (Document data) = inr (v, Document (data ++ [v]))
        ∧ (NoDup (Visit.id <$> data ++ [v])
           ↔ NoDup (Visit.id <$> data)
             ∧ Z.of_nat (length data) + 1 ∉ Visit.id <$> data))
  ∧ ∃ v, record_visit form now (Document [sample_visit 2 "Rampur" 40])
         = inr (v, Document [sample_visit 2 "Rampur" 40; v])
         ∧ Visit.id <$> [sample_visit 2 "Rampur" 40; v] = [2; 2].
Proof.
  split.
  - exists (visit_of form now (Z.of_nat (length data) + 1)).
    split; [by apply record_visit_run|].
    rewrite fmap_app, NoDup_app. simpl.
    change (Visit.id (visit_of form now (Z.of_nat (length data) + 1)))
      with (Z.of_nat (length data) + 1).
    split.
    + intros (Hnd & Hfresh & _). split; [done|].
      intros Hin. apply (Hfresh _ Hin). apply list_elem_of_here.
    + intros [Hnd Hfresh]. split; [done|]. split.
      * intros x Hx ->%list_elem_of_singleton. done.
      * apply NoDup_singleton.
  - exists (visit_of form now 2). split; reflexivity.
Qed.
End Sessions.

(** * Further properties of the dashboard *)

Section SortMore.
Context {A : Type} (key : A → Z).
Implicit Types (x y : A) (l : list A) (k : Z).

Lemma sorted_desc_filter (P : A → Prop) `{!∀ x, Decision (P x)} l :
  sorted_desc key l → sorted_desc key (filter P l).
Proof.
  unfold sorted_desc. induction 1 as [|x l Hl IH Hx]; [constructor|].
  rewrite filter_cons. case_decide; [|done].
  constructor; [done|].
  rewrite Forall_forall in Hx |- *.
  intros y [_ Hy]%list_elem_of_filter. by apply Hx.
Qed.

Lemma with_key_filter (P : A → Prop) `{!∀ x, Decision (P x)} k l :
  with_key key k (filter P l) = filter P (with_key key k l).
Proof.
  unfold with_key. induction l as [|x l IH]; [done|].
  rewrite !filter_cons.
  repeat (case_decide; rewrite ?filter_cons); rewrite ?IH; try done.
Qed.

Lemma filter_sort_desc (P : A → Prop) `{!∀ x, Decision (P x)} l :
  filter P (sort_desc key l) = sort_desc key (filter P l).
Proof.
  apply (sorted_desc_unique key).
  - apply sorted_desc_filter, sort_desc_sorted.
  - apply sort_desc_sorted.
  - intros k.
    by rewrite with_key_filter, !sort_desc_with_key, with_key_filter.
Qed.

Lemma sort_desc_of_sorted l : sorted_desc key l → sort_desc key l = l.
Proof.
  intros Hl. apply (sorted_desc_unique key); [apply sort_desc_sorted|done|].
  intros k. apply sort_desc_with_key.
Qed.
End SortMore.

Section DashboardMore.
Implicit Types (data l : list Visit.t) (d : Visit.t).
Implicit Types (filter_risk filter_village : list string) (level : string).

Lemma sum_points_ones {A} (l : list A) :
  sum_points (λ _, 1) l = Z.of_nat (length l).
Proof. induction l as [|x l IH]; simpl length; simpl sum_points; lia. Qed.

Lemma consistent_level d : consistent d → Visit.risk_level d ∈ all_levels.
Proof.
  intros (_ & -> & _). unfold get_risk_level, all_levels.
  repeat case_match; compute_done.
Qed.

Lemma elem_of_villages data (x : string) :
  x ∈ villages data ↔ ∃ d, d ∈ data ∧ Visit.village d = x.
Proof.
  unfold villages.
  rewrite elem_of_elements, elem_of_list_to_set, list_elem_of_fmap.
  split.
  - intros (d & -> & Hd). by exists d.
  - intros (d & Hd & <-). by exists d.
Qed.

Lemma filtered_data_covering data filter_risk filter_village :
  Forall (λ d, Visit.village d ∈ filter_village) data →
  filtered_data data filter_risk filter_village
  = filter (λ d, Visit.risk_level d ∈ filter_risk) data.
Proof.
  intros Hcover. rewrite filtered_data_filter.
  induction Hcover as [|d data Hd Hdata IH]; [done|].
  rewrite !filter_cons, IH.
  repeat case_decide; try done; tauto.
Qed.

Lemma villages_cover data : Forall (λ d, Visit.village d ∈ villages data) data.
Proof.
  apply Forall_forall. intros d Hd. apply elem_of_villages. by exists d.
Qed.

(** X15: on a consistent store the three risk metrics of the dashboard add
    up to the total number of visits. *)
Theorem risk_metrics_add_up data :
  Forall consistent data →
  count_level "HIGH" data + count_level "MEDIUM" data + count_level "LOW" data
  = Z.of_nat (length data).
Proof.
  unfold count_level. rewrite !sum_points_ones.
  induction 1 as [|d data Hd Hdata IH]; [done|].
  apply consistent_level in Hd.
  simpl List.filter. simpl (length (d :: data)).
  unfold all_levels in Hd.
  rewrite !elem_of_cons, elem_of_nil in Hd.
  destruct Hd as [-> | [-> | [-> | []]]]; simpl; lia.
Qed.

Lemma risk_metrics_add_up_witness :
  count_level "HIGH" [sample_visit 1 "Rampur" 80; sample_visit 2 "Sitapur" 10]
  + count_level "MEDIUM" [sample_visit 1 "Rampur" 80; sample_visit 2 "Sitapur" 10]
  + count_level "LOW" [sample_visit 1 "Rampur" 80; sample_visit 2 "Sitapur" 10]
  = 2.
Proof.
  apply (risk_metrics_add_up
           [sample_visit 1 "Rampur" 80; sample_visit 2 "Sitapur" 10]).
  repeat constructor; simpl; lia.
Defined.

(** X16: each risk metric counts the cards the patient list shows when
    that level alone is chosen and the village filter is left at its
    default. *)
Theorem count_level_is_filtered level data :
  count_level level data
  = Z.of_nat (length (patient_list data [level] (villages data))).
Proof.
  unfold count_level, patient_list.
  rewrite (Permutation_length (sort_desc_perm _ _)).
  rewrite sum_points_ones, (filtered_data_covering _ _ _ (villages_cover data)).
  do 2 f_equal.
  induction data as [|d data IH]; [done|].
  rewrite filter_cons. cbn [List.filter]. rewrite IH.
  destruct (String.eqb_spec (Visit.risk_level d) level) as [->|Hne].
  - rewrite decide_True; [done|]. apply list_elem_of_here.
  - rewrite decide_False; [done|]. by intros ?%list_elem_of_singleton.
Qed.

(** X17: the village options are the villages of the stored records, each
    once; with both filters at their defaults a consistent store is shown
    whole: nothing is filtered out and the patient list is a rearrangement
    of the store. *)
Theorem default_filters_show_all data :
  NoDup (villages data)
  ∧ (∀ x : string, x ∈ villages data ↔ ∃ d, d ∈ data ∧ Visit.village d = x)
  ∧ (Forall consistent data →
     filtered_data data all_levels (villages data) = data
     ∧ patient_list data all_levels (villages data) ≡ₚ data).
Proof.
  split; [unfold villages; apply NoDup_elements|].
  split; [apply elem_of_villages|].
  intros Hdata.
  assert (filtered_data data all_levels (villages data) = data) as Hall.
  { rewrite (filtered_data_covering _ _ _ (villages_cover data)).
    induction Hdata as [|d data Hd Hdata IH]; [done|].
    rewrite filter_cons_True by by apply consistent_level.
    by rewrite IH. }
  split; [done|].
  unfold patient_list. rewrite Hall. apply sort_desc_perm.
Qed.

Lemma default_filters_show_all_witness :
  filtered_data [sample_visit 1 "Rampur" 80; sample_visit 2 "Sitapur" 10]
    all_levels
    (villages [sample_visit 1 "Rampur" 80; sample_visit 2 "Sitapur" 10])
  = [sample_visit 1 "Rampur" 80; sample_visit 2 "Sitapur" 10].
Proof.
  destruct (default_filters_show_all
              [sample_visit 1 "Rampur" 80; sample_visit 2 "Sitapur" 10])
    as (_ & _ & Hshow).
  apply Hshow.
  repeat constructor; simpl; lia.
Defined.

(** X18: filtering and sorting commute: the patient list is also what the
    filter keeps of the whole store sorted by score. *)
Theorem patient_list_filter_after_sort data filter_risk filter_village :
  patient_list data filter_risk filter_village
  = filtered_data (sort_desc Visit.risk_score data) filter_risk filter_village.
Proof.
  unfold patient_list. rewrite !filtered_data_filter.
  symmetry. apply filter_sort_desc.
Qed.

(** X19: a list already in descending order of score comes out of the sort
    as it went in, so sorting twice is sorting once. *)
Theorem sort_desc_fixes_sorted l :
  sorted_desc Visit.risk_score l → sort_desc Visit.risk_score l = l.
Proof. apply sort_desc_of_sorted. Qed.

Lemma sort_desc_fixes_sorted_witness :
  sort_desc Visit.risk_score
    [sample_visit 1 "Rampur" 80; sample_visit 2 "Sitapur" 40;
     sample_visit 3 "Rampur" 40]
  = [sample_visit 1 "Rampur" 80; sample_visit 2 "Sitapur" 40;
     sample_visit 3 "Rampur" 40].
Proof.
  apply sort_desc_fixes_sorted.
  repeat constructor; simpl; lia.
Defined.

(** X20: the first card of the patient list is a record with the highest
    score among the stored records that pass both filters. *)
Theorem patient_list_head_highest data filter_risk filter_village d rest d' :
  patient_list data filter_risk filter_village = d :: rest →
  d' ∈ data →
  Visit.risk_level d' ∈ filter_risk →
  Visit.village d' ∈ filter_village →
  Visit.risk_score d' ≤ Visit.risk_score d
  ∧ d ∈ data
  ∧ Visit.risk_level d ∈ filter_risk
  ∧ Visit.village d ∈ filter_village.
Proof.
  intros Hlist Hd' Hlevel Hvillage.
  pose proof (sort_desc_sorted Visit.risk_score
                (filtered_data data filter_risk filter_village)) as Hsorted.
  pose proof (sort_desc_perm Visit.risk_score
                (filtered_data data filter_risk filter_village)) as Hperm.
  fold (patient_list data filter_risk filter_village) in Hsorted, Hperm.
  rewrite Hlist in Hsorted, Hperm.
  assert (∀ x, x ∈ d :: rest
               ↔ x ∈ data ∧ Visit.risk_level x ∈ filter_risk
                 ∧ Visit.village x ∈ filter_village) as Hmem.
  { intros x. rewrite Hperm, filtered_data_filter, list_elem_of_filter. tauto. }
  split.
  - assert (d' ∈ d :: rest) as Hin by by apply Hmem.
    apply StronglySorted_inv in Hsorted as [_ Hhead].
    apply elem_of_cons in Hin as [->|Hin]; [lia|].
    rewrite Forall_forall in Hhead. by apply Hhead.
  - apply Hmem, list_elem_of_here.
Qed.

Lemma patient_list_head_highest_witness :
  Visit.risk_score (sample_visit 1 "Rampur" 40)
  ≤ Visit.risk_score (sample_visit 2 "Rampur" 80).
Proof.
  apply (patient_list_head_highest
           [sample_visit 1 "Rampur" 40; sample_visit 2 "Rampur" 80]
           all_levels ["Rampur"]
           (sample_visit 2 "Rampur" 80) [sample_visit 1 "Rampur" 40]
           (sample_visit 1 "Rampur" 40)).
  - vm_compute. reflexivity.
  - apply list_elem_of_here.
  - vm_compute. set_solver.
  - apply list_elem_of_here.
Defined.
End DashboardMore.
